(** * A shallow embedding of the Flask + Strawberry + MongoDB user service

    The development follows the layout of the repository:
    - [Bson]      : the part of [bson.objectid.ObjectId] that [models/user_model.py] calls;
    - [Py]        : Python values, dictionaries and exceptions, and the
                    state-and-exception monad in which the data-access code runs;
    - [Pymongo]   : the collection operations the code calls ([find], [find_one],
                    [insert_one], [delete_one]) on an in-memory collection;
    - [UserModel] : [models/user_model.py];
    - [Schema]    : [schema.py] (the [User] type, [Query], [Mutation]);
    - [Database]  : [database.py] (module initialisation from the environment). *)

From Stdlib Require Import Strings.String Strings.Ascii Strings.Byte NArith Lia.
From stdpp Require Import base option list gmap strings.

Local Open Scope string_scope.
Local Open Scope list_scope.

(** ** Bytes and hexadecimal text *)

Module Bson.

(** An ObjectId holds its [binary] value, a byte string. *)
Record ObjectId := MkObjectId { binary : list Byte.byte }.

(** The digits used by [binascii.hexlify]: lower case. *)
Definition hex_digit (n : N) : ascii :=
  match n with
  | 0 => "0" | 1 => "1" | 2 => "2" | 3 => "3" | 4 => "4"
  | 5 => "5" | 6 => "6" | 7 => "7" | 8 => "8" | 9 => "9"
  | 10 => "a" | 11 => "b" | 12 => "c" | 13 => "d" | 14 => "e"
  | _ => "f"
  end%N%char.

(** The value of a hexadecimal digit; [bytes.fromhex] takes both cases. *)
Definition hex_value (c : ascii) : option N :=
  let n := N_of_ascii c in
  if (48 <=? n)%N && (n <=? 57)%N then Some (n - 48)%N
  else if (97 <=? n)%N && (n <=? 102)%N then Some (n - 87)%N
  else if (65 <=? n)%N && (n <=? 70)%N then Some (n - 55)%N
  else None.

(** [binascii.hexlify(bs).decode()] *)
Fixpoint hexlify (bs : list Byte.byte) : string :=
  match bs with
  | [] => EmptyString
  | b :: bs' =>
      let n := Byte.to_N b in
      String (hex_digit (n / 16)) (String (hex_digit (n mod 16)) (hexlify bs'))
  end.

(** ASCII white space: space, tab, line feed, vertical tab, form feed and
    carriage return. *)
Definition is_space (c : ascii) : bool :=
  let n := N_of_ascii c in
  (n =? 32)%N || ((9 <=? n)%N && (n <=? 13)%N).

(** [bytes.fromhex(s)]: two adjacent hexadecimal digits per byte, ASCII
    white space skipped in front of a byte; anything else is a [ValueError],
    here [None]. *)
Fixpoint fromhex (s : string) : option (list Byte.byte) :=
  match s with
  | EmptyString => Some []
  | String c1 s1 =>
      if is_space c1 then fromhex s1
      else
        match s1 with
        | EmptyString => None
        | String c2 s2 =>
            match hex_value c1, hex_value c2, fromhex s2 with
            | Some h, Some l, Some bs =>
                match Byte.of_N (16 * h + l) with
                | Some b => Some (b :: bs)
                | None => None
                end
            | _, _, _ => None
            end
        end
  end.

(** [ObjectId(oid)] for a [str] argument: a string of length 24 that
    [bytes.fromhex] reads gives the ObjectId of its bytes, any other string
    raises [InvalidId], here [None]. Twenty-four hexadecimal digits spell 12
    bytes; the length of the bytes read is not checked again. *)
Definition ObjectId_of_str (oid : string) : option ObjectId :=
  if decide (String.length oid = 24) then
    match fromhex oid with
    | Some bs => Some (MkObjectId bs)
    | None => None
    end
  else None.

(** [str(oid)] *)
Definition ObjectId_str (o : ObjectId) : string := hexlify (binary o).

(** An identifier as [ObjectId()] generates it and as the store holds it:
    12 bytes. *)
Definition valid (o : ObjectId) : Prop := length (binary o) = 12.

End Bson.

(** ** Python values, exceptions and effects *)

Module Py.

(** The values that reach this program: [None], [str] and ObjectId. *)
Inductive value :=
| VNone
| VStr (s : string)
| VOid (o : Bson.ObjectId).

#[global] Instance byte_eq_dec : EqDecision Byte.byte.
Proof.
  intros a b. destruct (decide (Byte.to_N a = Byte.to_N b)) as [E|E].
  - left. apply (f_equal Byte.of_N) in E. rewrite !Byte.of_to_N in E. congruence.
  - right. congruence.
Defined.

#[global] Instance ObjectId_eq_dec : EqDecision Bson.ObjectId.
Proof. solve_decision. Defined.

#[global] Instance value_eq_dec : EqDecision value.
Proof. solve_decision. Defined.

(** A [dict] with [str] keys; a stored document is one. *)
Abbreviation dict := (gmap string value).

Inductive exn :=
| InvalidId
| TypeError
| KeyError (key : string)
| DuplicateKeyError
| InvalidName
| ConfigurationError
| ValueError
| OtherError (class_name : string).

(** [str(v)] *)
Definition str (v : value) : string :=
  match v with
  | VNone => "None"
  | VStr s => s
  | VOid o => Bson.ObjectId_str o
  end.

(** How a call ends: with a value or with an exception. *)
Inductive outcome (A : Type) :=
| Ok (a : A)
| Raise (e : exn).
Arguments Ok {A} a.
Arguments Raise {A} e.

(** A computation over a mutable store [S]: the outcome and the store it
    leaves, also when it raises. *)
Definition M (S A : Type) : Type := S -> outcome A * S.

Definition ret {S A} (a : A) : M S A := fun s => (Ok a, s).
Definition raise {S A} (e : exn) : M S A := fun s => (Raise e, s).
Definition bind {S A B} (m : M S A) (k : A -> M S B) : M S B :=
  fun s =>
    match m s with
    | (Ok a, s') => k a s'
    | (Raise e, s') => (Raise e, s')
    end.
Definition get {S} : M S S := fun s => (Ok s, s).
Definition put {S} (s : S) : M S unit := fun _ => (Ok tt, s).

(** An expression that may raise, run inside a computation. *)
Definition lift {S A} (o : outcome A) : M S A := fun s => (o, s).

(** A computation is read-only when it leaves every store as it found it,
    whatever its outcome. *)
Definition read_only {S A} (m : M S A) : Prop := forall s, snd (m s) = s.

(** The same call made [n] times in a row: the outcomes in order and the
    store after the last one. A call that raises does not stop the next. *)
Fixpoint calls {S A} (m : M S A) (n : nat) (s : S) : list (outcome A) * S :=
  match n with
  | 0 => ([], s)
  | Datatypes.S n' =>
      let '(r, s') := m s in
      let '(rs, s'') := calls m n' s' in
      (r :: rs, s'')
  end.

(** [d[k]] on a [dict]: [KeyError] when the key is missing. *)
Definition getitem (d : dict) (k : string) : outcome value :=
  match d !! k with
  | Some v => Ok v
  | None => Raise (KeyError k)
  end.

(** [u[k]] where [u] may be [None]: subscripting [None] is a [TypeError]. *)
Definition subscript (u : option dict) (k : string) : outcome value :=
  match u with
  | Some d => getitem d k
  | None => Raise TypeError
  end.

(** The truth value of [u] in [if u:]: [None] and the empty [dict] are false. *)
Definition truthy (u : option dict) : bool :=
  match u with
  | Some d => bool_decide (d ≠ ∅)
  | None => false
  end.

End Py.

Declare Scope py_scope.
Delimit Scope py_scope with py.
Notation "'let*' x := m 'in' k" := (Py.bind m (fun x => k))
  (at level 10, x name, m at level 100, k at level 200) : py_scope.
Notation "'let*' '_' := m 'in' k" := (Py.bind m (fun _ => k))
  (at level 10, m at level 100, k at level 200) : py_scope.

(** ** The collection operations of the driver *)

Module Pymongo.
Import Py.

(** A collection: its documents in natural order. *)
Abbreviation collection := (list dict).

(** A query document [flt] selects the documents that hold each of its
    fields with an equal value; an ObjectId equals another when their bytes
    are the same. *)
Definition matches (flt d : dict) : bool :=
  bool_decide (map_Forall (fun k v => d !! k = Some v) flt).

(** No document of the collection has the identifier [o]. *)
Definition absent (o : Bson.ObjectId) (c : collection) : Prop :=
  Forall (fun d => d !! "_id" ≠ Some (VOid o)) c.

(** [list(c.find())] *)
Definition find : M collection (list dict) := get.

(** [c.find_one(flt)]: the first match, or [None]. *)
Definition find_one (flt : dict) : M collection (option dict) :=
  (let* c := get in ret (List.find (matches flt) c))%py.

(** [c.insert_one(doc)], with [fresh] the identifier [ObjectId()] generates
    for this call. A document without ["_id"] gets [fresh]; the unique
    index on ["_id"] refuses a value some stored document has. The result
    is [inserted_id]. *)
Definition insert_one (fresh : Bson.ObjectId) (doc : dict) : M collection value :=
  let doc' :=
    match doc !! "_id" with
    | Some _ => doc
    | None => <["_id" := VOid fresh]> doc
    end in
  let inserted_id := default (VOid fresh) (doc !! "_id") in
  (let* c := get in
   if existsb (matches {["_id" := inserted_id]}) c
   then raise DuplicateKeyError
   else (let* _ := put (c ++ [doc']) in ret inserted_id))%py.

(** Remove the first document that [p] selects; the count removed. *)
Fixpoint remove_first (p : dict -> bool) (c : collection) : nat * collection :=
  match c with
  | [] => (0, [])
  | d :: c' =>
      if p d then (1, c')
      else let '(n, r) := remove_first p c' in (n, d :: r)
  end.

(** [c.delete_one(flt)]; the result is [deleted_count]. *)
Definition delete_one (flt : dict) : M collection nat :=
  (let* c := get in
   let '(n, c') := remove_first (matches flt) c in
   let* _ := put c' in ret n)%py.

End Pymongo.

(** ** [models/user_model.py] *)

Module UserModel.
Import Py Pymongo.

(** [ObjectId(user_id)] *)
Definition ObjectId (user_id : string) : outcome Bson.ObjectId :=
  match Bson.ObjectId_of_str user_id with
  | Some o => Ok o
  | None => Raise InvalidId
  end.

Definition get_all_users : M collection (list dict) := find.

Definition get_user_by_id (user_id : string) : M collection (option dict) :=
  (let* o := lift (ObjectId user_id) in find_one {["_id" := VOid o]})%py.

Definition add_user (fresh : Bson.ObjectId) (name email : string)
  : M collection (option dict) :=
  (let* inserted_id := insert_one fresh {["name" := VStr name; "email" := VStr email]} in
   find_one {["_id" := inserted_id]})%py.

Definition delete_user (user_id : string) : M collection bool :=
  (let* o := lift (ObjectId user_id) in
   let* deleted_count := delete_one {["_id" := VOid o]} in
   ret (0 <? deleted_count)%nat)%py.

(** The document a returning [add_user] leaves in the collection: the one
    it builds, with the generated identifier. *)
Definition added_document (fresh : Bson.ObjectId) (name email : string) : dict :=
  <["_id" := VOid fresh]> {["name" := VStr name; "email" := VStr email]}.

End UserModel.

(** ** [schema.py] *)

Module Schema.
Import Py Pymongo.

(** The [User] type. Its attributes hold whatever the resolver passes. *)
Record User := MkUser { id : value; name : value; email : value }.

(** [User(id=str(u["_id"]), name=u["name"], email=u["email"])], the
    arguments evaluated from left to right. *)
Definition shape (u : option dict) : M collection User :=
  (let* _id := lift (subscript u "_id") in
   let* n := lift (subscript u "name") in
   let* e := lift (subscript u "email") in
   ret (MkUser (VStr (str _id)) n e))%py.

(** The list comprehension of [users]. *)
Fixpoint shape_each (us : list dict) : M collection (list User) :=
  match us with
  | [] => ret []
  | u :: us' =>
      (let* x := shape (Some u) in
       let* xs := shape_each us' in
       ret (x :: xs))%py
  end.

Module Query.

Definition users : M collection (list User) :=
  (let* us := UserModel.get_all_users in shape_each us)%py.

Definition user_by_id (id : string) : M collection (option User) :=
  (let* u := UserModel.get_user_by_id id in
   if truthy u
   then (let* x := shape u in ret (Some x))
   else ret None)%py.

End Query.

Module Mutation.

Definition add_user (fresh : Bson.ObjectId) (name email : string)
  : M collection User :=
  (let* u := UserModel.add_user fresh name email in shape u)%py.

Definition delete_user (id : string) : M collection bool :=
  UserModel.delete_user id.

End Mutation.

End Schema.

(** ** [database.py] *)

Module Database.
Import Py.

(** [os.environ] *)
Abbreviation environ := (gmap string string).

Record MongoClient := MkClient { host : string }.
Record Database := MkDatabase { client : MongoClient; db_name : string }.

Section Driver.

(** The driver's checks of a connection string and of a database name, and
    the exception [MongoClient] raises for a connection string it refuses:
    [ValueError] for a port that is not a number, [ConfigurationError] or
    another class for other faults. *)
Variable uri_ok : string -> bool.
Variable uri_error : string -> exn.
Variable name_ok : string -> bool.

(** [load_dotenv()], with [dotenv] the entries of the [.env] file: a
    variable the process already has keeps its value. *)
Definition load_dotenv (dotenv : environ) : M environ unit :=
  fun env => (Ok tt, env ∪ dotenv).

(** [os.getenv(key)]: [None] when the variable is not set. *)
Definition getenv (key : string) : M environ (option string) :=
  fun env => (Ok (env !! key), env).

(** [MongoClient(host)]: without a host the client takes the default
    one and opens no connection yet; a connection string the driver
    refuses raises the driver's exception for it. *)
Definition MongoClient_new (host : option string) : outcome MongoClient :=
  match host with
  | None => Ok (MkClient "localhost")
  | Some uri => if uri_ok uri then Ok (MkClient uri) else Raise (uri_error uri)
  end.

(** [client[name]]: a name that is not a [str] is a [TypeError]. *)
Definition get_database (c : MongoClient) (name : option string) : outcome Database :=
  match name with
  | None => Raise TypeError
  | Some n => if name_ok n then Ok (MkDatabase c n) else Raise InvalidName
  end.

(** The body of the module, run at import. *)
Definition init (dotenv : environ) : M environ Database :=
  (let* _ := load_dotenv dotenv in
   let* mongo_uri := getenv "MONGO_URI" in
   let* mongo_db := getenv "MONGO_DB" in
   let* client := lift (MongoClient_new mongo_uri) in
   lift (get_database client mongo_db))%py.

End Driver.

End Database.

(** ** Sample data *)

Module Sample.
Import Py.

Definition oid_a : Bson.ObjectId := Bson.MkObjectId (repeat Byte.x01 12).
Definition oid_b : Bson.ObjectId := Bson.MkObjectId (repeat Byte.xab 12).
Definition oid_c : Bson.ObjectId := Bson.MkObjectId (repeat Byte.xcd 12).

(** A collection with one user, stored under [oid_b]. *)
Definition one_user : Pymongo.collection :=
  [UserModel.added_document oid_b "Bob" "bob@example.com"].

(** Three users under three identifiers, two of them with the same name
    and email. *)
Definition three_users : Pymongo.collection :=
  [UserModel.added_document oid_b "Bob" "bob@example.com";
   UserModel.added_document oid_a "Alice" "alice@example.com";
   UserModel.added_document oid_c "Bob" "bob@example.com"].

(** A driver for the examples: it refuses the connection string whose port
    is not a number, with [ValueError], and accepts the database name
    ["demo"]. *)
Definition uri_ok (uri : string) : bool :=
  negb (String.eqb uri "mongodb://db:notaport").
Definition uri_error (uri : string) : exn := ValueError.
Definition name_ok (name : string) : bool := String.eqb name "demo".

End Sample.

(** ** Requests to the endpoint *)

Module Requests.
Import Py Pymongo Schema.

(** The entity the resolvers build from a document that has the three
    keys they read. *)
Definition entity (d : dict) : option User :=
  match d !! "_id", d !! "name", d !! "email" with
  | Some i, Some n, Some e => Some (MkUser (VStr (str i)) n e)
  | _, _, _ => None
  end.

(** The first of the three keys, in the order the resolvers read them, that
    a document lacks. *)
Definition missing_key (d : dict) : option string :=
  match d !! "_id", d !! "name", d !! "email" with
  | None, _, _ => Some "_id"
  | Some _, None, _ => Some "name"
  | Some _, Some _, None => Some "email"
  | Some _, Some _, Some _ => None
  end.

(** No two documents of the collection have the same ["_id"]. *)
Definition unique_ids (c : collection) : Prop :=
  NoDup (omap (fun d : dict => d !! "_id") c).

(** A document as [add_user] stores them, under a 12-byte identifier. *)
Definition user_document (d : dict) : Prop :=
  exists (o : Bson.ObjectId) (name email : string),
    Bson.valid o /\ d = UserModel.added_document o name email.

(** One request runs one resolver; [AddUser] carries the identifier that
    [ObjectId()] generates while it is served. *)
Inductive request :=
| Users
| UserById (id : string)
| AddUser (fresh : Bson.ObjectId) (name email : string)
| DeleteUser (id : string).

(** The collection a request leaves, whether its resolver returns or
    raises: the next request finds it. *)
Definition serve (r : request) (c : collection) : collection :=
  match r with
  | Users => snd (Query.users c)
  | UserById i => snd (Query.user_by_id i c)
  | AddUser fresh name email => snd (Mutation.add_user fresh name email c)
  | DeleteUser i => snd (Mutation.delete_user i c)
  end.

Definition serve_all (rs : list request) (c : collection) : collection :=
  foldl (fun c r => serve r c) c rs.

(** The generated identifier of an [AddUser] has 12 bytes. *)
Definition well_minted (r : request) : Prop :=
  match r with
  | AddUser fresh _ _ => Bson.valid fresh
  | _ => True
  end.

End Requests.

(** * Properties *)

(** ** Identifiers and their text *)

Section BsonFacts.
Import Bson.

Lemma fromhex_hexlify_byte (b : Byte.byte) (s : string) :
  fromhex (String (hex_digit (Byte.to_N b / 16))
             (String (hex_digit (Byte.to_N b mod 16)) s))
  = option_map (cons b) (fromhex s).
Proof.
  assert (H : is_space (hex_digit (Byte.to_N b / 16)) = false
             /\ hex_value (hex_digit (Byte.to_N b / 16)) = Some (Byte.to_N b / 16)%N
           /\ hex_value (hex_digit (Byte.to_N b mod 16)) = Some (Byte.to_N b mod 16)%N
           /\ Byte.of_N (16 * (Byte.to_N b / 16) + Byte.to_N b mod 16) = Some b)
    by (destruct b; vm_compute; auto).
  destruct H as (Hs & Hh & Hl & Hb).
  cbn [fromhex]. rewrite Hs, Hh, Hl, Hb.
  destruct (fromhex s); reflexivity.
Qed.

Lemma fromhex_hexlify (bs : list Byte.byte) : fromhex (hexlify bs) = Some bs.
Proof.
  induction bs as [|b bs IH]; [reflexivity|].
  cbn [hexlify]. rewrite fromhex_hexlify_byte, IH. reflexivity.
Qed.

Lemma length_hexlify (bs : list Byte.byte) :
  String.length (hexlify bs) = 2 * length bs.
Proof. induction bs as [|b bs IH]; simpl; lia. Qed.

(** Parsing the text of a generated identifier gives it back. *)
Lemma Bson_ObjectId_of_str_str (o : ObjectId) :
  valid o -> ObjectId_of_str (ObjectId_str o) = Some o.
Proof.
  destruct o as [bs]. unfold valid, ObjectId_of_str, ObjectId_str. simpl.
  intros Hlen. rewrite length_hexlify, Hlen, fromhex_hexlify.
  reflexivity.
Qed.

Example ObjectId_str_oid_a :
  ObjectId_str Sample.oid_a = "010101010101010101010101".
Proof. reflexivity. Qed.

Example ObjectId_of_str_upper_case :
  ObjectId_of_str "ABABABABABABABABABABABAB" = Some Sample.oid_b.
Proof. reflexivity. Qed.

Example ObjectId_of_str_short : ObjectId_of_str "0101" = None.
Proof. reflexivity. Qed.

Example ObjectId_of_str_not_hex :
  ObjectId_of_str "01010101010101010101010g" = None.
Proof. reflexivity. Qed.

End BsonFacts.

(** ** Computations that only read *)

Section ReadOnly.
Import Py.
Context {S : Type}.

Lemma read_only_ret {A} (a : A) : read_only (@ret S A a).
Proof. intros s. reflexivity. Qed.

Lemma read_only_raise {A} (e : exn) : read_only (@raise S A e).
Proof. intros s. reflexivity. Qed.

Lemma read_only_lift {A} (o : outcome A) : read_only (@lift S A o).
Proof. intros s. reflexivity. Qed.

Lemma read_only_get : read_only (@get S).
Proof. intros s. reflexivity. Qed.

Lemma read_only_bind {A B} (m : M S A) (k : A -> M S B) :
  read_only m -> (forall a, read_only (k a)) -> read_only (bind m k).
Proof.
  intros Hm Hk s. unfold bind. specialize (Hm s).
  destruct (m s) as [[a|e] s']; simpl in Hm; subst s'.
  - apply Hk.
  - reflexivity.
Qed.

End ReadOnly.

Create HintDb readonly.
#[export] Hint Resolve read_only_ret read_only_raise read_only_lift
  read_only_get : readonly.
#[export] Hint Extern 2 (Py.read_only (Py.bind _ _)) =>
  apply read_only_bind; [|intros ?] : readonly.

(** ** Selecting documents *)

Section PymongoFacts.
Import Py Pymongo.

(** A query on ["_id"] alone selects by the value of that field. *)
Lemma matches_id (v : value) (d : dict) :
  matches {["_id" := v]} d = true <-> d !! "_id" = Some v.
Proof.
  unfold matches. rewrite bool_decide_eq_true, map_Forall_singleton.
  reflexivity.
Qed.

Lemma matches_id_false (v : value) (d : dict) :
  matches {["_id" := v]} d = false <-> d !! "_id" ≠ Some v.
Proof.
  rewrite <- matches_id. destruct (matches _ d); split; congruence.
Qed.

Lemma absent_unmatched (o : Bson.ObjectId) (c : collection) :
  absent o c <-> Forall (fun d => matches {["_id" := VOid o]} d = false) c.
Proof.
  unfold absent. apply Forall_iff. intros d. symmetry. apply matches_id_false.
Qed.

Section Selection.

Variable p : dict -> bool.

Lemma find_unmatched (c : collection) :
  Forall (fun d => p d = false) c -> List.find p c = None.
Proof.
  induction 1 as [|d c Hd _ IH]; simpl; [reflexivity|].
  rewrite Hd. exact IH.
Qed.

Lemma find_last (c : collection) (d : dict) :
  Forall (fun d => p d = false) c -> p d = true ->
  List.find p (c ++ [d]) = Some d.
Proof.
  induction 1 as [|x c Hx _ IH]; simpl; intros Hd.
  - rewrite Hd. reflexivity.
  - rewrite Hx. auto.
Qed.

Lemma existsb_unmatched (c : collection) :
  existsb p c = false <-> Forall (fun d => p d = false) c.
Proof.
  induction c as [|d c IH]; simpl.
  - split; auto.
  - rewrite orb_false_iff, IH, Forall_cons. reflexivity.
Qed.

Lemma remove_first_unmatched (c : collection) :
  Forall (fun d => p d = false) c -> remove_first p c = (0, c).
Proof.
  induction 1 as [|d c Hd _ IH]; simpl; [reflexivity|].
  rewrite Hd, IH. reflexivity.
Qed.

Lemma remove_first_last (c : collection) (d : dict) :
  Forall (fun d => p d = false) c -> p d = true ->
  remove_first p (c ++ [d]) = (1, c).
Proof.
  induction 1 as [|x c Hx _ IH]; simpl; intros Hd.
  - rewrite Hd. reflexivity.
  - rewrite Hx, IH by assumption. reflexivity.
Qed.

(** What [remove_first] does to a collection: nothing, or it takes out
    the first selected document and keeps the others in place. *)
Lemma remove_first_spec (c : collection) :
  (remove_first p c = (0, c) /\ Forall (fun d => p d = false) c)
  \/ (exists l1 d l2,
        c = l1 ++ d :: l2 /\ remove_first p c = (1, l1 ++ l2)
        /\ p d = true /\ Forall (fun d => p d = false) l1).
Proof.
  induction c as [|x c IH]; simpl.
  - left. split; [reflexivity|constructor].
  - destruct (p x) eqn:Hx.
    + right. exists [], x, c. simpl. auto.
    + destruct IH as [[E F]|(l1 & d & l2 & Ec & E & Hd & F)].
      * left. rewrite E. split; [reflexivity|constructor; assumption].
      * right. exists (x :: l1), d, l2. rewrite E, Ec. simpl. auto.
Qed.

End Selection.

Lemma insert_one_fresh (fresh : Bson.ObjectId) (doc : dict) (c : collection) :
  doc !! "_id" = None -> absent fresh c ->
  insert_one fresh doc c = (Ok (VOid fresh), c ++ [<["_id" := VOid fresh]> doc]).
Proof.
  intros Hdoc Habs. unfold insert_one. rewrite Hdoc. cbn.
  apply absent_unmatched, existsb_unmatched in Habs. rewrite Habs. reflexivity.
Qed.

Lemma insert_one_duplicate (fresh : Bson.ObjectId) (doc : dict) (c : collection) :
  doc !! "_id" = None -> ~ absent fresh c ->
  insert_one fresh doc c = (Raise DuplicateKeyError, c).
Proof.
  intros Hdoc Habs. unfold insert_one. rewrite Hdoc. cbn.
  rewrite absent_unmatched, <- existsb_unmatched in Habs.
  apply not_false_is_true in Habs. rewrite Habs. reflexivity.
Qed.

End PymongoFacts.

(** ** The data-access functions and the resolvers *)

Section Service.
Import Py Pymongo.
Import Schema.

Lemma ObjectId_malformed (id : string) :
  Bson.ObjectId_of_str id = None -> UserModel.ObjectId id = Raise InvalidId.
Proof. unfold UserModel.ObjectId. intros ->. reflexivity. Qed.

Lemma ObjectId_well_formed (id : string) (o : Bson.ObjectId) :
  Bson.ObjectId_of_str id = Some o -> UserModel.ObjectId id = Ok o.
Proof. unfold UserModel.ObjectId. intros ->. reflexivity. Qed.

Lemma read_only_shape (u : option dict) : read_only (shape u).
Proof. unfold shape. auto 10 with readonly. Qed.

Lemma read_only_shape_each (us : list dict) : read_only (shape_each us).
Proof.
  induction us as [|u us IH]; simpl; auto 10 using read_only_shape with readonly.
Qed.

Lemma read_only_find_one (flt : dict) : read_only (find_one flt).
Proof. unfold find_one. auto with readonly. Qed.

Lemma read_only_get_user_by_id (id : string) :
  read_only (UserModel.get_user_by_id id).
Proof.
  unfold UserModel.get_user_by_id. auto using read_only_find_one with readonly.
Qed.

(** C1, as the code has it: a string that [ObjectId] rejects makes
    [get_user_by_id] raise [InvalidId], [user_by_id] lets the exception
    through, and the collection is as it was. *)
Theorem user_by_id_malformed (id : string) (c : collection) :
  Bson.ObjectId_of_str id = None ->
  UserModel.get_user_by_id id c = (Raise InvalidId, c)
  /\ Query.user_by_id id c = (Raise InvalidId, c).
Proof.
  intros H. apply ObjectId_malformed in H.
  unfold Query.user_by_id, UserModel.get_user_by_id, bind, lift.
  rewrite H. split; reflexivity.
Qed.

(** C1 as stated fails: the malformed identifier ["not-a-valid-id"] does not
    give [None], [user_by_id] and [get_user_by_id] end with [InvalidId]. *)
Lemma user_by_id_malformed_counterexample :
  Bson.ObjectId_of_str "not-a-valid-id" = None
  /\ Query.user_by_id "not-a-valid-id" [] = (Raise InvalidId, [])
  /\ UserModel.get_user_by_id "not-a-valid-id" [] = (Raise InvalidId, [])
  /\ ~ (forall id c, Bson.ObjectId_of_str id = None ->
                     fst (Query.user_by_id id c) = Ok None).
Proof.
  split; [reflexivity|]. split; [reflexivity|]. split; [reflexivity|].
  intros H. specialize (H "not-a-valid-id" [] eq_refl). discriminate H.
Qed.

Lemma user_by_id_malformed_witness :
  Bson.ObjectId_of_str "xyz" = None
  /\ UserModel.get_user_by_id "xyz" [] = (Raise InvalidId, [])
  /\ Query.user_by_id "xyz" [] = (Raise InvalidId, []).
Proof.
  split; [reflexivity|]. apply (user_by_id_malformed "xyz" []). reflexivity.
Defined.

(** C2, as the code has it: a string that [ObjectId] rejects makes
    [delete_user] raise [InvalidId], in the data-access function and in the
    mutation, and the collection is as it was. *)
Theorem delete_user_malformed (id : string) (c : collection) :
  Bson.ObjectId_of_str id = None ->
  UserModel.delete_user id c = (Raise InvalidId, c)
  /\ Mutation.delete_user id c = (Raise InvalidId, c).
Proof.
  intros H. apply ObjectId_malformed in H.
  unfold Mutation.delete_user, UserModel.delete_user, bind, lift.
  rewrite H. split; reflexivity.
Qed.

(** C2 as stated fails: [delete_user("not-a-valid-id")] is not [False], it
    ends with [InvalidId]. *)
Lemma delete_user_malformed_counterexample :
  Bson.ObjectId_of_str "not-a-valid-id" = None
  /\ Mutation.delete_user "not-a-valid-id" [] = (Raise InvalidId, [])
  /\ fst (Mutation.delete_user "not-a-valid-id" []) <> Ok false.
Proof.
  split; [reflexivity|]. split; [reflexivity|]. discriminate.
Qed.

Lemma delete_user_malformed_witness :
  Bson.ObjectId_of_str "42" = None
  /\ UserModel.delete_user "42" [] = (Raise InvalidId, [])
  /\ Mutation.delete_user "42" [] = (Raise InvalidId, []).
Proof.
  split; [reflexivity|]. apply (delete_user_malformed "42" []). reflexivity.
Defined.

Lemma added_document_fields (fresh : Bson.ObjectId) (name email : string) :
  let d := UserModel.added_document fresh name email in
  d !! "_id" = Some (VOid fresh) /\ d !! "name" = Some (VStr name)
  /\ d !! "email" = Some (VStr email) /\ d ≠ ∅.
Proof.
  unfold UserModel.added_document.
  split; [by simplify_map_eq|]. split; [by simplify_map_eq|].
  split; [by simplify_map_eq|]. apply insert_non_empty.
Qed.

(** [add_user] with an identifier no stored document has: the new document
    goes last and is the one read back. *)
Lemma add_user_fresh (fresh : Bson.ObjectId) (name email : string) (c : collection) :
  absent fresh c ->
  UserModel.add_user fresh name email c
  = (Ok (Some (UserModel.added_document fresh name email)),
     c ++ [UserModel.added_document fresh name email]).
Proof.
  intros Habs.
  pose proof (added_document_fields fresh name email) as (Hid & _).
  unfold UserModel.add_user, bind.
  rewrite insert_one_fresh by (by simplify_map_eq || assumption).
  fold (UserModel.added_document fresh name email).
  unfold find_one, bind, get, ret.
  apply absent_unmatched in Habs.
  rewrite (find_last _ _ _ Habs); [reflexivity|].
  apply matches_id. exact Hid.
Qed.

(** [add_user] with an identifier some stored document has: the unique
    index refuses the insertion. *)
Lemma add_user_duplicate (fresh : Bson.ObjectId) (name email : string) (c : collection) :
  ~ absent fresh c ->
  UserModel.add_user fresh name email c = (Raise DuplicateKeyError, c).
Proof.
  intros Habs. unfold UserModel.add_user, bind.
  rewrite insert_one_duplicate by (by simplify_map_eq || assumption).
  reflexivity.
Qed.

Lemma absent_dec (o : Bson.ObjectId) (c : collection) : Decision (absent o c).
Proof. unfold absent. apply Forall_dec. intros d. apply _. Defined.

Lemma shape_added_document (fresh : Bson.ObjectId) (name email : string) (c : collection) :
  shape (Some (UserModel.added_document fresh name email)) c
  = (Ok (MkUser (VStr (Bson.ObjectId_str fresh)) (VStr name) (VStr email)), c).
Proof.
  pose proof (added_document_fields fresh name email) as (Hid & Hn & He & _).
  unfold shape, bind, lift, ret, subscript, getitem.
  rewrite Hid, Hn, He. reflexivity.
Qed.

(** The mutation [add_user] returns exactly when the generated identifier
    is new to the collection. *)
Lemma Mutation_add_user_inv (fresh : Bson.ObjectId) (name email : string)
    (c c' : collection) (u : User) :
  Mutation.add_user fresh name email c = (Ok u, c') ->
  absent fresh c
  /\ c' = c ++ [UserModel.added_document fresh name email]
  /\ u = MkUser (VStr (Bson.ObjectId_str fresh)) (VStr name) (VStr email).
Proof.
  unfold Mutation.add_user, bind.
  destruct (absent_dec fresh c) as [Habs|Habs].
  - rewrite (add_user_fresh _ _ _ _ Habs), shape_added_document.
    intros [= <- <-]. auto.
  - rewrite (add_user_duplicate _ _ _ _ Habs). discriminate.
Qed.

Lemma get_user_by_id_found (o : Bson.ObjectId) (id : string) (c : collection) (d : dict) :
  Bson.ObjectId_of_str id = Some o -> absent o c -> d !! "_id" = Some (VOid o) ->
  UserModel.get_user_by_id id (c ++ [d]) = (Ok (Some d), c ++ [d]).
Proof.
  intros Hid Habs Hd. apply ObjectId_well_formed in Hid.
  apply absent_unmatched in Habs.
  unfold UserModel.get_user_by_id, find_one, bind, lift, get, ret.
  rewrite Hid, (find_last _ c d Habs); [reflexivity|].
  apply matches_id. exact Hd.
Qed.

(** C3: when [ObjectId()] generates a 12-byte identifier that no stored
    document has, the mutation [add_user(name, email)] returns an entity
    with that name and email, and [user_by_id] on the entity's id returns the
    same entity, whatever the collection held before. *)
Theorem add_user_then_user_by_id (fresh : Bson.ObjectId) (name email : string)
    (c : collection) :
  Bson.valid fresh -> absent fresh c ->
  exists (u : User) (c' : collection) (i : string),
    Mutation.add_user fresh name email c = (Ok u, c')
    /\ Schema.id u = VStr i
    /\ Query.user_by_id i c' = (Ok (Some u), c')
    /\ Schema.name u = VStr name /\ Schema.email u = VStr email.
Proof.
  intros Hgen Habs.
  pose proof (added_document_fields fresh name email) as (Hid & _ & _ & Hne).
  eexists _, _, (Bson.ObjectId_str fresh).
  split.
  { unfold Mutation.add_user, bind.
    rewrite (add_user_fresh _ _ _ _ Habs), shape_added_document. reflexivity. }
  split; [reflexivity|]. split; [|split; reflexivity].
  unfold Query.user_by_id, bind.
  rewrite (get_user_by_id_found fresh _ c _ (Bson_ObjectId_of_str_str _ Hgen) Habs Hid).
  unfold truthy. rewrite (bool_decide_eq_true_2 _ Hne).
  rewrite shape_added_document. reflexivity.
Qed.

Lemma add_user_then_user_by_id_witness :
  exists (u : User) (c' : collection) (i : string),
    Mutation.add_user Sample.oid_a "Alice" "alice@example.com" Sample.one_user = (Ok u, c')
    /\ Schema.id u = VStr i
    /\ Query.user_by_id i c' = (Ok (Some u), c')
    /\ Schema.name u = VStr "Alice" /\ Schema.email u = VStr "alice@example.com".
Proof.
  apply (add_user_then_user_by_id Sample.oid_a "Alice" "alice@example.com" Sample.one_user).
  - reflexivity.
  - repeat constructor. vm_compute. discriminate.
Defined.

Lemma delete_user_absent (o : Bson.ObjectId) (id : string) (c : collection) :
  Bson.ObjectId_of_str id = Some o -> absent o c ->
  UserModel.delete_user id c = (Ok false, c).
Proof.
  intros Hid Habs. apply ObjectId_well_formed in Hid.
  apply absent_unmatched in Habs.
  unfold UserModel.delete_user, delete_one, bind, lift, get, put, ret.
  rewrite Hid, (remove_first_unmatched _ c Habs). reflexivity.
Qed.

Lemma delete_user_last (o : Bson.ObjectId) (id : string) (c : collection) (d : dict) :
  Bson.ObjectId_of_str id = Some o -> absent o c -> d !! "_id" = Some (VOid o) ->
  UserModel.delete_user id (c ++ [d]) = (Ok true, c).
Proof.
  intros Hid Habs Hd. apply ObjectId_well_formed in Hid.
  apply absent_unmatched in Habs.
  unfold UserModel.delete_user, delete_one, bind, lift, get, put, ret.
  rewrite Hid, (remove_first_last _ c d Habs); [reflexivity|].
  apply matches_id. exact Hd.
Qed.

Lemma calls_delete_user_absent (o : Bson.ObjectId) (id : string) (c : collection) (n : nat) :
  Bson.ObjectId_of_str id = Some o -> absent o c ->
  calls (Mutation.delete_user id) n c = (repeat (Ok false) n, c).
Proof.
  intros Hid Habs. induction n as [|n IH]; [reflexivity|].
  cbn [calls repeat]. unfold Mutation.delete_user at 1.
  rewrite (delete_user_absent o id c Hid Habs), IH. reflexivity.
Qed.

(** C4: for the id of an entity the mutation [add_user] returned (the
    generated identifier being of 12 bytes), with nothing in between, the
    first [delete_user] returns [True] and takes the collection back to
    what it was before [add_user]; each of any number of further calls
    returns [False]. *)
Theorem delete_user_once (fresh : Bson.ObjectId) (name email : string)
  (c c1 : collection) (u : User) (i : string) (n : nat) :
  Bson.valid fresh ->
  Mutation.add_user fresh name email c = (Ok u, c1) ->
  Schema.id u = VStr i ->
  Mutation.delete_user i c1 = (Ok true, c)
  /\ calls (Mutation.delete_user i) (S n) c1 = (Ok true :: repeat (Ok false) n, c).
Proof.
  intros Hgen Hadd Hi.
  apply Mutation_add_user_inv in Hadd as (Habs & -> & ->).
  injection Hi as <-.
  pose proof (added_document_fields fresh name email) as (Hid & _).
  pose proof (Bson_ObjectId_of_str_str _ Hgen) as Hparse.
  assert (Hfirst : Mutation.delete_user (Bson.ObjectId_str fresh)
                     (c ++ [UserModel.added_document fresh name email]) = (Ok true, c))
    by exact (delete_user_last fresh _ c _ Hparse Habs Hid).
  split; [exact Hfirst|].
  cbn [calls]. rewrite Hfirst, (calls_delete_user_absent fresh _ c n Hparse Habs).
  reflexivity.
Qed.

Lemma delete_user_once_witness :
  Mutation.delete_user "010101010101010101010101"
    (Sample.one_user ++ [UserModel.added_document Sample.oid_a "Alice" "alice@example.com"])
  = (Ok true, Sample.one_user)
  /\ calls (Mutation.delete_user "010101010101010101010101") 4
       (Sample.one_user ++ [UserModel.added_document Sample.oid_a "Alice" "alice@example.com"])
     = ([Ok true; Ok false; Ok false; Ok false], Sample.one_user).
Proof.
  apply (delete_user_once Sample.oid_a "Alice" "alice@example.com" Sample.one_user _
           (MkUser (VStr "010101010101010101010101") (VStr "Alice")
              (VStr "alice@example.com"))
           "010101010101010101010101" 3).
  - reflexivity.
  - vm_compute. reflexivity.
  - reflexivity.
Defined.

Lemma shape_id (u : option dict) (c c' : collection) (x : User) :
  shape u c = (Ok x, c') -> exists i : string, Schema.id x = VStr i.
Proof.
  unfold shape, bind, lift, ret.
  destruct (subscript u "_id") as [v|]; [|discriminate].
  destruct (subscript u "name"); [|discriminate].
  destruct (subscript u "email"); [|discriminate].
  intros [= <- _]. eexists. reflexivity.
Qed.

Lemma shape_each_id (us : list dict) (c c' : collection) (xs : list User) :
  shape_each us c = (Ok xs, c') ->
  Forall (fun x => exists i : string, Schema.id x = VStr i) xs.
Proof.
  revert c c' xs. induction us as [|u us IH]; intros c c' xs.
  - intros [= <- _]. constructor.
  - cbn [shape_each]. unfold bind at 1.
    destruct (shape (Some u) c) as [[x|e] c1] eqn:Hx; [|discriminate].
    unfold bind at 1.
    destruct (shape_each us c1) as [[xs'|e] c2] eqn:Hxs; [|discriminate].
    intros [= <- _]. constructor; eauto using shape_id.
Qed.

(** C5: the [id] of every [User] that [users], [user_by_id] or the mutation
    [add_user] returns is not [None]: it is the [str] built by the resolver. *)
Theorem returned_user_id_not_null :
  (forall (c c' : collection) (us : list User),
      Query.users c = (Ok us, c') -> Forall (fun u => Schema.id u <> VNone) us)
  /\ (forall (i : string) (c c' : collection) (u : User),
        Query.user_by_id i c = (Ok (Some u), c') -> Schema.id u <> VNone)
  /\ (forall (fresh : Bson.ObjectId) (name email : string) (c c' : collection) (u : User),
        Mutation.add_user fresh name email c = (Ok u, c') -> Schema.id u <> VNone).
Proof.
  split; [|split].
  - intros c c' us H. unfold Query.users, bind, UserModel.get_all_users, find, get in H.
    apply shape_each_id in H. eapply Forall_impl; [exact H|].
    intros u [i ->]. discriminate.
  - intros i c c' u. unfold Query.user_by_id. unfold bind at 1.
    destruct (UserModel.get_user_by_id i c) as [[d|e] c1]; [|discriminate].
    destruct (truthy d); [|discriminate].
    unfold bind, ret.
    destruct (shape d c1) as [[x|e] c2] eqn:Hx; [|discriminate].
    intros [= <- _]. apply shape_id in Hx as [j ->]. discriminate.
  - intros fresh name email c c' u H.
    apply Mutation_add_user_inv in H as (_ & _ & ->). discriminate.
Qed.

Lemma returned_user_id_not_null_witness :
  Forall (fun u => Schema.id u <> VNone)
    [MkUser (VStr "abababababababababababab") (VStr "Bob") (VStr "bob@example.com")]
  /\ Schema.id (MkUser (VStr "abababababababababababab") (VStr "Bob")
                  (VStr "bob@example.com")) <> VNone
  /\ Schema.id (MkUser (VStr "010101010101010101010101") (VStr "Alice")
                  (VStr "alice@example.com")) <> VNone.
Proof.
  destruct returned_user_id_not_null as (Husers & Hby_id & Hadd).
  split; [|split].
  - apply (Husers Sample.one_user Sample.one_user). vm_compute. reflexivity.
  - apply (Hby_id "abababababababababababab" Sample.one_user Sample.one_user).
    vm_compute. reflexivity.
  - apply (Hadd Sample.oid_a "Alice" "alice@example.com" Sample.one_user
             (Sample.one_user ++ [UserModel.added_document Sample.oid_a "Alice"
                                    "alice@example.com"])).
    vm_compute. reflexivity.
Defined.

(** C6: on the empty collection [users()] returns the empty list, without
    an exception, and the collection stays empty. *)
Theorem users_empty_store : Query.users [] = (Ok [], []).
Proof. reflexivity. Qed.

(** What [delete_user] does for a well-formed identifier: [False] and no
    change when no document has it, otherwise [True] and the first document
    that has it is gone. *)
Lemma delete_user_spec (o : Bson.ObjectId) (id : string) (c : collection) :
  Bson.ObjectId_of_str id = Some o ->
  (UserModel.delete_user id c = (Ok false, c) /\ absent o c)
  \/ (exists l1 d l2,
        c = l1 ++ d :: l2 /\ UserModel.delete_user id c = (Ok true, l1 ++ l2)
        /\ d !! "_id" = Some (VOid o) /\ absent o l1).
Proof.
  intros Hid. pose proof (ObjectId_well_formed _ _ Hid) as Hparse.
  unfold UserModel.delete_user, delete_one, bind, lift, get, put, ret.
  rewrite Hparse.
  destruct (remove_first_spec (matches {["_id" := VOid o]}) c)
    as [[E F]|(l1 & d & l2 & Ec & E & Hd & F)]; rewrite E.
  - left. split; [reflexivity|]. apply absent_unmatched. exact F.
  - right. exists l1, d, l2. split; [exact Ec|]. split; [reflexivity|].
    split; [apply matches_id; exact Hd|apply absent_unmatched; exact F].
Qed.

(** C8: a [delete_user(id)] that returns [True] took out one document,
    whose ["_id"] is the identifier [id] spells, and left the documents
    before and after it as they were, in place; one that returns [False]
    left the whole collection as it was. *)
Theorem delete_user_frame (id : string) (c c' : collection) (b : bool) :
  Mutation.delete_user id c = (Ok b, c') ->
  if b
  then exists (o : Bson.ObjectId) (l1 : collection) (d : dict) (l2 : collection),
      Bson.ObjectId_of_str id = Some o /\ d !! "_id" = Some (VOid o)
      /\ c = l1 ++ d :: l2 /\ c' = l1 ++ l2
  else c' = c.
Proof.
  unfold Mutation.delete_user.
  destruct (Bson.ObjectId_of_str id) as [o|] eqn:Hid.
  - destruct (delete_user_spec o id c Hid)
      as [[E _]|(l1 & d & l2 & Ec & E & Hd & _)]; rewrite E; intros [= <- <-].
    + reflexivity.
    + exists o, l1, d, l2. auto.
  - apply ObjectId_malformed in Hid.
    unfold UserModel.delete_user, bind, lift. rewrite Hid. discriminate.
Qed.

Lemma delete_user_frame_witness :
  (exists (o : Bson.ObjectId) (l1 : collection) (d : dict) (l2 : collection),
      Bson.ObjectId_of_str "abababababababababababab" = Some o
      /\ d !! "_id" = Some (VOid o)
      /\ Sample.one_user = l1 ++ d :: l2 /\ [] = l1 ++ l2)
  /\ Sample.one_user = Sample.one_user.
Proof.
  split.
  - apply (delete_user_frame "abababababababababababab" Sample.one_user [] true).
    vm_compute. reflexivity.
  - apply (delete_user_frame "010101010101010101010101" Sample.one_user
             Sample.one_user false).
    vm_compute. reflexivity.
Defined.

(** C9: for a well-formed identifier that no stored document has,
    [get_user_by_id] returns [None] and [user_by_id] returns [None], without
    an exception. *)
Theorem user_by_id_not_found (id : string) (o : Bson.ObjectId) (c : collection) :
  Bson.ObjectId_of_str id = Some o -> absent o c ->
  UserModel.get_user_by_id id c = (Ok None, c)
  /\ Query.user_by_id id c = (Ok None, c).
Proof.
  intros Hid Habs. apply ObjectId_well_formed in Hid.
  apply absent_unmatched in Habs.
  assert (H : UserModel.get_user_by_id id c = (Ok None, c)).
  { unfold UserModel.get_user_by_id, find_one, bind, lift, get, ret.
    rewrite Hid, (find_unmatched _ c Habs). reflexivity. }
  split; [exact H|].
  unfold Query.user_by_id, bind. rewrite H. reflexivity.
Qed.

Lemma user_by_id_not_found_witness :
  UserModel.get_user_by_id "010101010101010101010101" Sample.one_user
  = (Ok None, Sample.one_user)
  /\ Query.user_by_id "010101010101010101010101" Sample.one_user
     = (Ok None, Sample.one_user).
Proof.
  apply (user_by_id_not_found "010101010101010101010101" Sample.oid_a Sample.one_user).
  - reflexivity.
  - repeat constructor. vm_compute. discriminate.
Defined.

(** C10: [users()] and [user_by_id(id)], and the data-access functions
    under them, leave the collection as they found it, for every collection
    and every [id], whether they return or raise. *)
Theorem reads_leave_store (id : string) (c : collection) :
  snd (Query.users c) = c
  /\ snd (Query.user_by_id id c) = c
  /\ snd (UserModel.get_all_users c) = c
  /\ snd (UserModel.get_user_by_id id c) = c.
Proof.
  split; [|split; [|split]].
  - apply (read_only_bind (S := collection)); [apply read_only_get|].
    intros us. apply read_only_shape_each.
  - apply (read_only_bind (S := collection)); [apply read_only_get_user_by_id|].
    intros u. destruct (truthy u); auto using read_only_shape with readonly.
  - reflexivity.
  - apply read_only_get_user_by_id.
Qed.

(** The scenario of the specification: add Alice, read her back, delete
    her, read again. *)
Example alice_scenario :
  let alice := MkUser (VStr "010101010101010101010101") (VStr "Alice")
                 (VStr "alice@example.com") in
  let '(r1, c1) := Mutation.add_user Sample.oid_a "Alice" "alice@example.com" [] in
  let '(r2, c2) := Query.user_by_id "010101010101010101010101" c1 in
  let '(r3, c3) := Mutation.delete_user "010101010101010101010101" c2 in
  let '(r4, c4) := Query.user_by_id "010101010101010101010101" c3 in
  r1 = Ok alice /\ r2 = Ok (Some alice) /\ r3 = Ok true /\ r4 = Ok None /\ c4 = [].
Proof. vm_compute. auto. Qed.

(** An identifier the collection already holds is refused. *)
Example add_user_twice :
  fst (Mutation.add_user Sample.oid_b "Eve" "eve@example.com" Sample.one_user)
  = Raise DuplicateKeyError.
Proof. vm_compute. reflexivity. Qed.

End Service.

(** ** Start-up *)

Section Startup.
Import Py Database.

Variable uri_ok : string -> bool.
Variable uri_error : string -> exn.
Variable name_ok : string -> bool.

Lemma init_unfold (dotenv env : environ) :
  init uri_ok uri_error name_ok dotenv env
  = (match MongoClient_new uri_ok uri_error ((env ∪ dotenv) !! "MONGO_URI") with
     | Ok cl => get_database name_ok cl ((env ∪ dotenv) !! "MONGO_DB")
     | Raise e => Raise e
     end, env ∪ dotenv).
Proof.
  unfold init, bind, load_dotenv, getenv, lift.
  destruct (MongoClient_new uri_ok uri_error ((env ∪ dotenv) !! "MONGO_URI")); reflexivity.
Qed.


End Startup.



(** With [MONGO_DB] missing: [TypeError] behind a connection string the
    driver accepts, the driver's own [ValueError] behind one whose port is
    not a number. *)
Example init_without_db :
  fst (Database.init Sample.uri_ok Sample.uri_error Sample.name_ok ∅
         {["MONGO_URI" := "mongodb://db:27017"]}) = Py.Raise Py.TypeError
  /\ fst (Database.init Sample.uri_ok Sample.uri_error Sample.name_ok ∅
            {["MONGO_URI" := "mongodb://db:notaport"]}) = Py.Raise Py.ValueError.
Proof. split; reflexivity. Qed.


(** * Further properties of the resolvers *)

Section Listing.
Import Py Pymongo Schema Requests.

Lemma entity_missing_key (d : dict) :
  (exists u, entity d = Some u /\ missing_key d = None)
  \/ (exists k, entity d = None /\ missing_key d = Some k).
Proof.
  unfold entity, missing_key.
  destruct (d !! "_id"), (d !! "name"), (d !! "email"); eauto.
Qed.

(** What building the entity of a document does. *)
Lemma shape_entity (d : dict) (c : collection) :
  shape (Some d) c
  = (match entity d with
     | Some u => Ok u
     | None => Raise (KeyError (default "" (missing_key d)))
     end, c).
Proof.
  unfold shape, bind, lift, ret, subscript, getitem, entity, missing_key.
  destruct (d !! "_id"), (d !! "name"), (d !! "email"); reflexivity.
Qed.

Lemma shape_each_entities (ds : list dict) (c : collection) (us : list User) :
  Forall2 (fun d u => entity d = Some u) ds us ->
  shape_each ds c = (Ok us, c).
Proof.
  induction 1 as [|d u ds us Hd _ IH]; [reflexivity|].
  cbn [shape_each]. unfold bind. rewrite shape_entity, Hd, IH. reflexivity.
Qed.

Lemma shape_each_inv (ds : list dict) (c c' : collection) (us : list User) :
  shape_each ds c = (Ok us, c') ->
  Forall2 (fun d u => entity d = Some u) ds us.
Proof.
  revert us c'. induction ds as [|d ds IH]; intros us c'.
  - intros [= <- _]. constructor.
  - cbn [shape_each]. unfold bind at 1. rewrite shape_entity.
    destruct (entity d) as [u|] eqn:Hd; [|discriminate].
    unfold bind at 1.
    destruct (shape_each ds c) as [[us'|e] c1] eqn:Hds; [|discriminate].
    intros [= <- _]. constructor; [exact Hd|]. exact (IH us' c1 eq_refl).
Qed.

Lemma shape_each_missing (l1 l2 : list dict) (d : dict) (k : string) (c : collection) :
  Forall (fun d => missing_key d = None) l1 -> missing_key d = Some k ->
  shape_each (l1 ++ d :: l2) c = (Raise (KeyError k), c).
Proof.
  intros Hl1 Hd. induction Hl1 as [|x l1 Hx _ IH]; cbn [shape_each app].
  - unfold bind. rewrite shape_entity.
    destruct (entity_missing_key d) as [(u & _ & E)|(k' & -> & E)]; [congruence|].
    rewrite Hd. reflexivity.
  - unfold bind at 1. rewrite shape_entity.
    destruct (entity_missing_key x) as [(u & -> & _)|(k' & _ & E)]; [|congruence].
    unfold bind. rewrite IH. reflexivity.
Qed.

Lemma users_entities (c : collection) (us : list User) :
  Query.users c = (Ok us, c)
  <-> Forall2 (fun d u => entity d = Some u) c us.
Proof.
  unfold Query.users, UserModel.get_all_users, find, bind, get. split.
  - apply shape_each_inv.
  - apply shape_each_entities.
Qed.

(** X1: [users()] returns exactly when every stored document has the keys
    ["_id"], ["name"] and ["email"]; it then returns one entity per document,
    in the order of the collection, each built from its document, and
    leaves the collection as it was. *)
Theorem users_lists_every_document (c c' : collection) (us : list User) :
  Query.users c = (Ok us, c')
  <-> c' = c /\ Forall2 (fun d u => entity d = Some u) c us.
Proof.
  unfold Query.users, UserModel.get_all_users, find, bind, get. split.
  - intros H.
    pose proof (read_only_shape_each c c) as Hro. rewrite H in Hro.
    simpl in Hro. split; [exact Hro|]. eapply shape_each_inv, H.
  - intros [-> H]. apply shape_each_entities, H.
Qed.

(** X2: when a stored document lacks one of the three keys, and the
    documents before it have them all, [users()] raises [KeyError] for the
    first key that document lacks and returns no list, not even of the
    documents before. *)
Theorem users_missing_key (l1 l2 : collection) (d : dict) (k : string) :
  Forall (fun d => missing_key d = None) l1 -> missing_key d = Some k ->
  Query.users (l1 ++ d :: l2) = (Raise (KeyError k), l1 ++ d :: l2).
Proof.
  intros Hl1 Hd.
  unfold Query.users, UserModel.get_all_users, find, bind, get.
  apply shape_each_missing; assumption.
Qed.

Lemma users_missing_key_witness :
  Query.users (Sample.one_user ++ [{["_id" := VOid Sample.oid_a; "name" := VStr "Al"]}])
  = (Raise (KeyError "email"),
     Sample.one_user ++ [{["_id" := VOid Sample.oid_a; "name" := VStr "Al"]}]).
Proof.
  apply (users_missing_key Sample.one_user []
           {["_id" := VOid Sample.oid_a; "name" := VStr "Al"]} "email").
  - repeat constructor.
  - reflexivity.
Defined.

End Listing.

Section Lookup.
Import Py Pymongo Schema Requests.

Lemma find_first (p : dict -> bool) (l1 l2 : collection) (d : dict) :
  Forall (fun x => p x = false) l1 -> p d = true ->
  List.find p (l1 ++ d :: l2) = Some d.
Proof.
  induction 1 as [|x l1 Hx _ IH]; simpl; intros Hd.
  - rewrite Hd. reflexivity.
  - rewrite Hx. auto.
Qed.

(** A collection either has no document under [o], or splits at the first
    one that is. *)
Lemma first_stored (o : Bson.ObjectId) (c : collection) :
  absent o c
  \/ (exists l1 d l2,
        c = l1 ++ d :: l2 /\ absent o l1 /\ d !! "_id" = Some (VOid o)).
Proof.
  destruct (remove_first_spec (matches {["_id" := VOid o]}) c)
    as [[_ F]|(l1 & d & l2 & Ec & _ & Hd & F)].
  - left. apply absent_unmatched, F.
  - right. exists l1, d, l2. split; [exact Ec|].
    split; [apply absent_unmatched, F|apply matches_id, Hd].
Qed.

Lemma absent_first (o : Bson.ObjectId) (l1 l2 : collection) (d : dict) :
  d !! "_id" = Some (VOid o) -> ~ absent o (l1 ++ d :: l2).
Proof.
  intros Hd Habs. unfold absent in Habs.
  apply Forall_app in Habs as [_ Habs]. apply Forall_cons in Habs as [Hn _].
  exact (Hn Hd).
Qed.

(** [user_by_id] in terms of the first document the query selects. *)
Lemma user_by_id_find (i : string) (o : Bson.ObjectId) (c : collection) :
  Bson.ObjectId_of_str i = Some o ->
  Query.user_by_id i c
  = (match List.find (matches {["_id" := VOid o]}) c with
     | Some d =>
         if bool_decide (d ≠ ∅)
         then match entity d with
              | Some u => Ok (Some u)
              | None => Raise (KeyError (default "" (missing_key d)))
              end
         else Ok None
     | None => Ok None
     end, c).
Proof.
  intros Hi. apply ObjectId_well_formed in Hi.
  unfold Query.user_by_id, UserModel.get_user_by_id, find_one, bind, lift, get, ret.
  rewrite Hi. destruct (List.find _ c) as [d|]; [|reflexivity].
  unfold truthy. destruct (bool_decide (d ≠ ∅)); [|reflexivity].
  rewrite shape_entity. destruct (entity d); reflexivity.
Qed.

Lemma user_by_id_first (i : string) (o : Bson.ObjectId) (l1 l2 : collection) (d : dict) :
  Bson.ObjectId_of_str i = Some o -> absent o l1 -> d !! "_id" = Some (VOid o) ->
  Query.user_by_id i (l1 ++ d :: l2)
  = (match entity d with
     | Some u => Ok (Some u)
     | None => Raise (KeyError (default "" (missing_key d)))
     end, l1 ++ d :: l2).
Proof.
  intros Hi Habs Hd. rewrite (user_by_id_find i o _ Hi).
  apply absent_unmatched in Habs.
  rewrite (find_first _ l1 l2 d Habs) by (apply matches_id, Hd).
  rewrite bool_decide_eq_true_2; [reflexivity|].
  intros ->. rewrite lookup_empty in Hd. discriminate.
Qed.

(** X3: the mutation [add_user] has two outcomes. When no stored document has
    the generated identifier it returns the new entity and the collection is
    the old one with the new document at its end; otherwise it raises
    [DuplicateKeyError] and the collection is as it was. It raises nothing
    else and never touches a document already stored. *)
Theorem add_user_outcome (fresh : Bson.ObjectId) (name email : string) (c : collection) :
  (absent fresh c
   /\ Mutation.add_user fresh name email c
      = (Ok (MkUser (VStr (Bson.ObjectId_str fresh)) (VStr name) (VStr email)),
         c ++ [UserModel.added_document fresh name email]))
  \/ (~ absent fresh c
      /\ Mutation.add_user fresh name email c = (Raise DuplicateKeyError, c)).
Proof.
  unfold Mutation.add_user, bind.
  destruct (absent_dec fresh c) as [Habs|Habs]; [left|right]; split; try assumption.
  - rewrite (add_user_fresh _ _ _ _ Habs), shape_added_document. reflexivity.
  - rewrite (add_user_duplicate _ _ _ _ Habs). reflexivity.
Qed.

(** X4: when [users()] returns a list and then [add_user] returns an
    entity, [users()] on the new collection returns the old list with that
    entity at its end. *)
Theorem users_after_add_user (fresh : Bson.ObjectId) (name email : string)
  (c c' : collection) (us : list User) (u : User) :
  Query.users c = (Ok us, c) ->
  Mutation.add_user fresh name email c = (Ok u, c') ->
  Query.users c' = (Ok (us ++ [u]), c').
Proof.
  intros Hus Hadd.
  apply Mutation_add_user_inv in Hadd as (_ & -> & ->).
  apply users_entities in Hus.
  apply users_entities.
  apply Forall2_app; [exact Hus|].
  constructor; [|constructor].
  pose proof (added_document_fields fresh name email) as (Hid & Hn & He & _).
  unfold entity. rewrite Hid, Hn, He. reflexivity.
Qed.

Lemma users_after_add_user_witness :
  Query.users (Sample.one_user ++ [UserModel.added_document Sample.oid_a "Alice"
                                     "alice@example.com"])
  = (Ok ([MkUser (VStr "abababababababababababab") (VStr "Bob") (VStr "bob@example.com")]
         ++ [MkUser (VStr "010101010101010101010101") (VStr "Alice")
               (VStr "alice@example.com")]),
     Sample.one_user ++ [UserModel.added_document Sample.oid_a "Alice"
                           "alice@example.com"]).
Proof.
  apply (users_after_add_user Sample.oid_a "Alice" "alice@example.com" Sample.one_user).
  - vm_compute. reflexivity.
  - vm_compute. reflexivity.
Defined.

(** X5: [user_by_id] finds any stored document, not only the last one
    added: for an id that spells the identifier of a stored document with a
    name and an email, it returns the entity of the first such document,
    with the identifier in lower-case hexadecimal as its id. *)
Theorem user_by_id_found (i : string) (o : Bson.ObjectId) (l1 l2 : collection)
  (d : dict) (n e : value) :
  Bson.ObjectId_of_str i = Some o ->
  absent o l1 -> d !! "_id" = Some (VOid o) ->
  d !! "name" = Some n -> d !! "email" = Some e ->
  Query.user_by_id i (l1 ++ d :: l2)
  = (Ok (Some (MkUser (VStr (Bson.ObjectId_str o)) n e)), l1 ++ d :: l2).
Proof.
  intros Hi Habs Hd Hn He. rewrite (user_by_id_first i o l1 l2 d Hi Habs Hd).
  unfold entity. rewrite Hd, Hn, He. reflexivity.
Qed.

Lemma user_by_id_found_witness :
  Query.user_by_id "ABABABABABABABABABABABAB"
    ([] ++ UserModel.added_document Sample.oid_b "Bob" "bob@example.com"
        :: [UserModel.added_document Sample.oid_a "Alice" "alice@example.com"])
  = (Ok (Some (MkUser (VStr (Bson.ObjectId_str Sample.oid_b)) (VStr "Bob")
                 (VStr "bob@example.com"))),
     [] ++ UserModel.added_document Sample.oid_b "Bob" "bob@example.com"
        :: [UserModel.added_document Sample.oid_a "Alice" "alice@example.com"]).
Proof.
  apply (user_by_id_found "ABABABABABABABABABABABAB" Sample.oid_b [] _ _
           (VStr "Bob") (VStr "bob@example.com")).
  - reflexivity.
  - constructor.
  - reflexivity.
  - reflexivity.
  - reflexivity.
Defined.

(** X6: when the first stored document under the requested identifier lacks
    ["name"] or ["email"], [user_by_id] raises [KeyError] for the first
    missing key instead of returning [None] or a partial entity. *)
Theorem user_by_id_missing_key (i : string) (o : Bson.ObjectId) (l1 l2 : collection)
  (d : dict) (k : string) :
  Bson.ObjectId_of_str i = Some o ->
  absent o l1 -> d !! "_id" = Some (VOid o) -> missing_key d = Some k ->
  Query.user_by_id i (l1 ++ d :: l2) = (Raise (KeyError k), l1 ++ d :: l2)
  /\ (k = "name" \/ k = "email").
Proof.
  intros Hi Habs Hd Hk. rewrite (user_by_id_first i o l1 l2 d Hi Habs Hd).
  destruct (entity_missing_key d) as [(u & _ & E)|(k' & -> & E)]; [congruence|].
  rewrite Hk. split; [reflexivity|].
  unfold missing_key in Hk. rewrite Hd in Hk.
  destruct (d !! "name"); [destruct (d !! "email")|]; simplify_eq; auto.
Qed.

Lemma user_by_id_missing_key_witness :
  Query.user_by_id "010101010101010101010101"
    (Sample.one_user ++ {["_id" := VOid Sample.oid_a; "email" := VStr "a@x"]} :: [])
  = (Raise (KeyError "name"),
     Sample.one_user ++ {["_id" := VOid Sample.oid_a; "email" := VStr "a@x"]} :: [])
  /\ ("name" = "name" \/ "name" = "email").
Proof.
  apply (user_by_id_missing_key "010101010101010101010101" Sample.oid_a
           Sample.one_user [] {["_id" := VOid Sample.oid_a; "email" := VStr "a@x"]}).
  - reflexivity.
  - repeat constructor. vm_compute. discriminate.
  - reflexivity.
  - reflexivity.
Defined.

(** X7: an entity that [user_by_id] returns is the entity of a stored
    document whose ["_id"] is the identifier the requested id spells; its id
    is that identifier in lower-case hexadecimal. [user_by_id] never answers
    with another user. *)
Theorem user_by_id_returns_requested (i : string) (c c' : collection) (u : User) :
  Query.user_by_id i c = (Ok (Some u), c') ->
  exists (o : Bson.ObjectId) (d : dict),
    Bson.ObjectId_of_str i = Some o /\ d ∈ c /\ d !! "_id" = Some (VOid o)
    /\ entity d = Some u /\ Schema.id u = VStr (Bson.ObjectId_str o).
Proof.
  destruct (Bson.ObjectId_of_str i) as [o|] eqn:Hi.
  - destruct (first_stored o c) as [Habs|(l1 & d & l2 & -> & Habs & Hd)].
    + apply absent_unmatched in Habs.
      rewrite (user_by_id_find i o c Hi), (find_unmatched _ c Habs). discriminate.
    + rewrite (user_by_id_first i o l1 l2 d Hi Habs Hd).
      destruct (entity d) as [x|] eqn:Hx; [|discriminate].
      intros [= <- _]. exists o, d. split; [reflexivity|].
      split; [apply elem_of_app; right; left|].
      split; [exact Hd|]. split; [exact Hx|].
      unfold entity in Hx. rewrite Hd in Hx.
      destruct (d !! "name"); [destruct (d !! "email")|]; simplify_eq.
      reflexivity.
  - apply ObjectId_malformed in Hi.
    unfold Query.user_by_id, UserModel.get_user_by_id, bind, lift.
    rewrite Hi. discriminate.
Qed.

Lemma user_by_id_returns_requested_witness :
  exists (o : Bson.ObjectId) (d : dict),
    Bson.ObjectId_of_str "abababababababababababab" = Some o
    /\ d ∈ Sample.one_user /\ d !! "_id" = Some (VOid o)
    /\ entity d = Some (MkUser (VStr "abababababababababababab") (VStr "Bob")
                          (VStr "bob@example.com"))
    /\ Schema.id (MkUser (VStr "abababababababababababab") (VStr "Bob")
                    (VStr "bob@example.com")) = VStr (Bson.ObjectId_str o).
Proof.
  apply (user_by_id_returns_requested "abababababababababababab" Sample.one_user
           Sample.one_user).
  vm_compute. reflexivity.
Defined.

(** X8: for an id that [ObjectId] parses, [user_by_id] returns [None]
    exactly when no stored document has that identifier. *)
Theorem user_by_id_none_iff_absent (i : string) (o : Bson.ObjectId) (c : collection) :
  Bson.ObjectId_of_str i = Some o ->
  (fst (Query.user_by_id i c) = Ok None <-> absent o c).
Proof.
  intros Hi. split.
  - intros H. destruct (first_stored o c) as [Habs|(l1 & d & l2 & -> & Habs & Hd)];
      [exact Habs|].
    rewrite (user_by_id_first i o l1 l2 d Hi Habs Hd) in H.
    destruct (entity d); discriminate.
  - intros Habs. apply absent_unmatched in Habs.
    rewrite (user_by_id_find i o c Hi), (find_unmatched _ c Habs). reflexivity.
Qed.

Lemma user_by_id_none_iff_absent_witness :
  fst (Query.user_by_id "010101010101010101010101" Sample.one_user) = Ok None
  <-> absent Sample.oid_a Sample.one_user.
Proof.
  apply (user_by_id_none_iff_absent "010101010101010101010101" Sample.oid_a
           Sample.one_user).
  reflexivity.
Defined.

(** X9: for an id that [ObjectId] parses, [delete_user] returns [True]
    exactly when some stored document has that identifier, and [False]
    exactly when none has; it raises in neither case. *)
Theorem delete_user_true_iff_stored (i : string) (o : Bson.ObjectId) (c : collection) :
  Bson.ObjectId_of_str i = Some o ->
  (fst (Mutation.delete_user i c) = Ok true <-> ~ absent o c)
  /\ (fst (Mutation.delete_user i c) = Ok false <-> absent o c).
Proof.
  intros Hi. unfold Mutation.delete_user.
  destruct (delete_user_spec o i c Hi)
    as [[E Habs]|(l1 & d & l2 & -> & E & Hd & _)]; rewrite E; simpl.
  - split; split; try discriminate; try tauto.
  - pose proof (absent_first o l1 l2 d Hd) as Hn.
    split; split; try discriminate; try tauto.
Qed.

Lemma delete_user_true_iff_stored_witness :
  (fst (Mutation.delete_user "abababababababababababab" Sample.one_user) = Ok true
   <-> ~ absent Sample.oid_b Sample.one_user)
  /\ (fst (Mutation.delete_user "abababababababababababab" Sample.one_user) = Ok false
      <-> absent Sample.oid_b Sample.one_user).
Proof.
  apply (delete_user_true_iff_stored "abababababababababababab" Sample.oid_b
           Sample.one_user).
  reflexivity.
Defined.

End Lookup.

Section Writes.
Import Py Pymongo Schema Requests.

Lemma absent_not_elem (o : Bson.ObjectId) (c : collection) :
  absent o c <-> VOid o ∉ omap (fun d : dict => d !! "_id") c.
Proof.
  unfold absent. rewrite Forall_forall, list_elem_of_omap. split.
  - intros H (d & Hd & E). exact (H d Hd E).
  - intros H d Hd E. apply H. exists d. auto.
Qed.

Lemma matches_other (o o' : Bson.ObjectId) (d : dict) :
  o ≠ o' -> matches {["_id" := VOid o]} d = true ->
  matches {["_id" := VOid o']} d = false.
Proof.
  intros Hne Hd. apply matches_id in Hd. apply matches_id_false.
  rewrite Hd. congruence.
Qed.

Lemma find_remove_first_other (p q : dict -> bool) (c : collection) :
  (forall d, p d = true -> q d = false) ->
  List.find q (snd (remove_first p c)) = List.find q c.
Proof.
  intros Hpq. induction c as [|x c IH]; [reflexivity|].
  cbn [remove_first]. destruct (p x) eqn:Hx.
  - simpl. rewrite (Hpq x Hx). reflexivity.
  - destruct (remove_first p c) as [n r]. simpl in *. rewrite IH. reflexivity.
Qed.

Lemma find_snoc_other (q : dict -> bool) (c : collection) (x : dict) :
  q x = false -> List.find q (c ++ [x]) = List.find q c.
Proof.
  intros Hx. induction c as [|y c IH]; simpl.
  - rewrite Hx. reflexivity.
  - destruct (q y); [reflexivity|exact IH].
Qed.

(** The collection [delete_user] leaves. *)
Lemma delete_user_store (i : string) (c : collection) :
  snd (UserModel.delete_user i c)
  = match Bson.ObjectId_of_str i with
    | Some o => snd (remove_first (matches {["_id" := VOid o]}) c)
    | None => c
    end.
Proof.
  unfold UserModel.delete_user, UserModel.ObjectId, delete_one, bind, lift, get, put, ret.
  destruct (Bson.ObjectId_of_str i) as [o|]; [|reflexivity].
  destruct (remove_first _ c) as [n r]. reflexivity.
Qed.

(** The collection the mutation [add_user] leaves. *)
Lemma add_user_store (fresh : Bson.ObjectId) (name email : string) (c : collection) :
  snd (Mutation.add_user fresh name email c)
  = if absent_dec fresh c
    then c ++ [UserModel.added_document fresh name email]
    else c.
Proof.
  unfold Mutation.add_user, bind.
  destruct (absent_dec fresh c) as [Habs|Habs].
  - rewrite (add_user_fresh _ _ _ _ Habs), shape_added_document. reflexivity.
  - rewrite (add_user_duplicate _ _ _ _ Habs). reflexivity.
Qed.

Lemma user_by_id_same_find (j : string) (c1 c2 : collection) :
  (forall o, Bson.ObjectId_of_str j = Some o ->
             List.find (matches {["_id" := VOid o]}) c1
             = List.find (matches {["_id" := VOid o]}) c2) ->
  fst (Query.user_by_id j c1) = fst (Query.user_by_id j c2).
Proof.
  intros H. destruct (Bson.ObjectId_of_str j) as [o|] eqn:Hj.
  - rewrite !(user_by_id_find j o _ Hj), (H o eq_refl). reflexivity.
  - apply ObjectId_malformed in Hj.
    unfold Query.user_by_id, UserModel.get_user_by_id, bind, lift.
    rewrite Hj. reflexivity.
Qed.

(** X10: [delete_user(i)] does not change what [user_by_id(j)] answers when
    [i] and [j] do not spell the same identifier: the other users stay
    where lookups find them, whether the deletion returns or raises. *)
Theorem delete_user_keeps_other_lookups (i j : string) (c : collection) :
  Bson.ObjectId_of_str i ≠ Bson.ObjectId_of_str j ->
  fst (Query.user_by_id j (snd (Mutation.delete_user i c)))
  = fst (Query.user_by_id j c).
Proof.
  intros Hne. apply user_by_id_same_find. intros o' Hj.
  unfold Mutation.delete_user. rewrite delete_user_store.
  destruct (Bson.ObjectId_of_str i) as [o|]; [|reflexivity].
  apply find_remove_first_other. intros d. apply matches_other. congruence.
Qed.

Lemma delete_user_keeps_other_lookups_witness :
  fst (Query.user_by_id "abababababababababababab"
         (snd (Mutation.delete_user "010101010101010101010101"
                 (Sample.one_user ++ [UserModel.added_document Sample.oid_a "Alice"
                                        "alice@example.com"]))))
  = fst (Query.user_by_id "abababababababababababab"
           (Sample.one_user ++ [UserModel.added_document Sample.oid_a "Alice"
                                  "alice@example.com"])).
Proof.
  apply (delete_user_keeps_other_lookups "010101010101010101010101"
           "abababababababababababab").
  vm_compute. discriminate.
Defined.

(** X11: [add_user] does not change what [user_by_id(j)] answers when [j]
    does not spell the generated identifier, whether the insertion returns
    or raises. *)
Theorem add_user_keeps_other_lookups (fresh : Bson.ObjectId) (name email j : string)
  (c : collection) :
  Bson.ObjectId_of_str j ≠ Some fresh ->
  fst (Query.user_by_id j (snd (Mutation.add_user fresh name email c)))
  = fst (Query.user_by_id j c).
Proof.
  intros Hne. apply user_by_id_same_find. intros o' Hj.
  rewrite add_user_store. destruct (absent_dec fresh c); [|reflexivity].
  apply find_snoc_other, matches_id_false.
  pose proof (added_document_fields fresh name email) as (Hid & _).
  rewrite Hid. congruence.
Qed.

Lemma add_user_keeps_other_lookups_witness :
  fst (Query.user_by_id "abababababababababababab"
         (snd (Mutation.add_user Sample.oid_a "Alice" "alice@example.com"
                 Sample.one_user)))
  = fst (Query.user_by_id "abababababababababababab" Sample.one_user).
Proof.
  apply (add_user_keeps_other_lookups Sample.oid_a "Alice" "alice@example.com"
           "abababababababababababab").
  vm_compute. discriminate.
Defined.

Lemma unique_ids_remove (l1 l2 : collection) (d : dict) :
  unique_ids (l1 ++ d :: l2) -> unique_ids (l1 ++ l2).
Proof.
  unfold unique_ids. rewrite !omap_app. cbn [omap list_omap].
  destruct (d !! "_id") as [v|]; [|auto].
  rewrite !NoDup_app, NoDup_cons. intros (H1 & H12 & _ & H2).
  split; [exact H1|]. split; [|exact H2].
  intros x Hx Hx2. apply (H12 x Hx). right. exact Hx2.
Qed.

Lemma add_user_keeps_unique_ids (fresh : Bson.ObjectId) (name email : string)
  (c : collection) :
  unique_ids c -> unique_ids (snd (Mutation.add_user fresh name email c)).
Proof.
  intros Hc.
  rewrite add_user_store. destruct (absent_dec fresh c) as [Habs|_]; [|exact Hc].
  unfold unique_ids. rewrite omap_app. apply NoDup_app.
  split; [exact Hc|].
  pose proof (added_document_fields fresh name email) as (Hid & _).
  cbn [omap list_omap]. rewrite Hid. split; [|apply NoDup_singleton].
  intros x Hx ->%list_elem_of_singleton.
  apply absent_not_elem in Habs. exact (Habs Hx).
Qed.

Lemma delete_user_keeps_unique_ids (i : string) (c : collection) :
  unique_ids c -> unique_ids (snd (Mutation.delete_user i c)).
Proof.
  intros Hc. unfold Mutation.delete_user.
  destruct (Bson.ObjectId_of_str i) as [o|] eqn:Hi.
  - destruct (delete_user_spec o i c Hi)
      as [[E _]|(l1 & d & l2 & -> & E & _)]; rewrite E; simpl.
    + exact Hc.
    + eapply unique_ids_remove, Hc.
  - rewrite delete_user_store, Hi. exact Hc.
Qed.

(** X12: the two mutations keep the identifiers of the collection pairwise
    distinct: a collection without two documents under one ["_id"] has
    none after [add_user] and none after [delete_user], whatever the
    arguments and the outcome. *)
Theorem mutations_keep_unique_ids (fresh : Bson.ObjectId) (name email i : string)
  (c : collection) :
  unique_ids c ->
  unique_ids (snd (Mutation.add_user fresh name email c))
  /\ unique_ids (snd (Mutation.delete_user i c)).
Proof.
  intros Hc. split.
  - apply add_user_keeps_unique_ids, Hc.
  - apply delete_user_keeps_unique_ids, Hc.
Qed.

Lemma mutations_keep_unique_ids_witness :
  unique_ids (snd (Mutation.add_user Sample.oid_a "Alice" "alice@example.com"
                     Sample.one_user))
  /\ unique_ids (snd (Mutation.delete_user "abababababababababababab" Sample.one_user)).
Proof.
  apply (mutations_keep_unique_ids Sample.oid_a "Alice" "alice@example.com"
           "abababababababababababab" Sample.one_user).
  unfold unique_ids. vm_compute. apply NoDup_singleton.
Defined.

(** X13: in a collection without two documents under one ["_id"], a
    [delete_user] with an id that [ObjectId] parses leaves no document
    under that identifier: [user_by_id] then returns [None] and a second
    [delete_user] returns [False] and changes nothing. *)
Theorem delete_user_then_gone (i : string) (o : Bson.ObjectId) (c : collection) :
  unique_ids c -> Bson.ObjectId_of_str i = Some o ->
  let c' := snd (Mutation.delete_user i c) in
  absent o c'
  /\ Query.user_by_id i c' = (Ok None, c')
  /\ Mutation.delete_user i c' = (Ok false, c').
Proof.
  intros Hc Hi c'.
  assert (Habs : absent o c').
  { subst c'. unfold Mutation.delete_user.
    destruct (delete_user_spec o i c Hi)
      as [[E Habs]|(l1 & d & l2 & -> & E & Hd & Habs)]; rewrite E; simpl.
    - exact Habs.
    - unfold absent. apply Forall_app. split; [exact Habs|].
      apply absent_not_elem. unfold unique_ids in Hc.
      rewrite omap_app in Hc. cbn [omap list_omap] in Hc. rewrite Hd in Hc.
      apply NoDup_app in Hc as (_ & _ & Hc). apply NoDup_cons in Hc as [Hc _].
      exact Hc. }
  split; [exact Habs|]. split.
  - pose proof Habs as Hu. apply absent_unmatched in Hu.
    rewrite (user_by_id_find i o c' Hi), (find_unmatched _ c' Hu). reflexivity.
  - exact (delete_user_absent o i c' Hi Habs).
Qed.

Lemma delete_user_then_gone_witness :
  let c' := snd (Mutation.delete_user "abababababababababababab" Sample.one_user) in
  absent Sample.oid_b c'
  /\ Query.user_by_id "abababababababababababab" c' = (Ok None, c')
  /\ Mutation.delete_user "abababababababababababab" c' = (Ok false, c').
Proof.
  apply (delete_user_then_gone "abababababababababababab" Sample.oid_b Sample.one_user).
  - unfold unique_ids. vm_compute. apply NoDup_singleton.
  - reflexivity.
Defined.

(** X20: when [users()] returns a list and then [delete_user(i)] returns
    [True], [users()] on the new collection returns the old list without
    one entity, the others in their order; the entity left out has the
    identifier that [i] spells as its id. *)
Theorem users_after_delete_user (i : string) (c c' : collection) (us : list User) :
  Query.users c = (Ok us, c) ->
  Mutation.delete_user i c = (Ok true, c') ->
  exists (o : Bson.ObjectId) (us1 : list User) (u : User) (us2 : list User),
    Bson.ObjectId_of_str i = Some o
    /\ us = us1 ++ u :: us2
    /\ Schema.id u = VStr (Bson.ObjectId_str o)
    /\ Query.users c' = (Ok (us1 ++ us2), c').
Proof.
  intros Hus Hdel. unfold Mutation.delete_user in Hdel.
  destruct (Bson.ObjectId_of_str i) as [o|] eqn:Hi.
  - destruct (delete_user_spec o i c Hi)
      as [[E _]|(l1 & d & l2 & -> & E & Hd & _)];
      rewrite E in Hdel; [discriminate|].
    injection Hdel as <-.
    apply users_entities in Hus.
    apply Forall2_app_inv_l in Hus as (us1 & us2' & H1 & H2 & ->).
    apply Forall2_cons_inv_l in H2 as (u & us2 & Hu & H2 & ->).
    exists o, us1, u, us2. split; [reflexivity|]. split; [reflexivity|].
    split.
    + unfold entity in Hu. rewrite Hd in Hu.
      destruct (d !! "name"); [destruct (d !! "email")|]; simplify_eq.
      reflexivity.
    + apply users_entities, Forall2_app; assumption.
  - apply ObjectId_malformed in Hi.
    unfold UserModel.delete_user, bind, lift in Hdel. rewrite Hi in Hdel.
    discriminate.
Qed.

Lemma users_after_delete_user_witness :
  exists (o : Bson.ObjectId) (us1 : list User) (u : User) (us2 : list User),
    Bson.ObjectId_of_str "abababababababababababab" = Some o
    /\ [MkUser (VStr "abababababababababababab") (VStr "Bob") (VStr "bob@example.com");
        MkUser (VStr "010101010101010101010101") (VStr "Alice")
          (VStr "alice@example.com")]
       = us1 ++ u :: us2
    /\ Schema.id u = VStr (Bson.ObjectId_str o)
    /\ Query.users [UserModel.added_document Sample.oid_a "Alice" "alice@example.com"]
       = (Ok (us1 ++ us2),
          [UserModel.added_document Sample.oid_a "Alice" "alice@example.com"]).
Proof.
  apply (users_after_delete_user "abababababababababababab"
           (Sample.one_user ++ [UserModel.added_document Sample.oid_a "Alice"
                                  "alice@example.com"])).
  - vm_compute. reflexivity.
  - vm_compute. reflexivity.
Defined.

End Writes.

Section Served.
Import Py Pymongo Schema Requests.

Lemma read_only_users : read_only Query.users.
Proof.
  apply (read_only_bind (S := collection)); [apply read_only_get|].
  intros us. apply read_only_shape_each.
Qed.

Lemma read_only_user_by_id (i : string) : read_only (Query.user_by_id i).
Proof.
  apply (read_only_bind (S := collection)); [apply read_only_get_user_by_id|].
  intros u. destruct (truthy u); auto using read_only_shape with readonly.
Qed.

Lemma user_document_entity (d : dict) :
  user_document d ->
  exists (o : Bson.ObjectId) (n e : string),
    Bson.valid o /\ d !! "_id" = Some (VOid o)
    /\ entity d = Some (MkUser (VStr (Bson.ObjectId_str o)) (VStr n) (VStr e)).
Proof.
  intros (o & n & e & Hv & ->).
  pose proof (added_document_fields o n e) as (Hid & Hn & He & _).
  exists o, n, e. split; [exact Hv|]. split; [exact Hid|].
  unfold entity. rewrite Hid, Hn, He. reflexivity.
Qed.

Lemma serve_keeps (r : request) (c : collection) :
  well_minted r -> unique_ids c -> Forall user_document c ->
  unique_ids (serve r c) /\ Forall user_document (serve r c).
Proof.
  intros Hr Hu Hd. destruct r as [|i|fresh name email|i]; cbn [serve].
  - rewrite read_only_users. auto.
  - rewrite read_only_user_by_id. auto.
  - split.
    + apply (add_user_keeps_unique_ids fresh name email c Hu).
    + rewrite add_user_store. destruct (absent_dec fresh c); [|exact Hd].
      apply Forall_app. split; [exact Hd|]. constructor; [|constructor].
      exists fresh, name, email. auto.
  - split.
    + apply (delete_user_keeps_unique_ids i c Hu).
    + unfold Mutation.delete_user.
      destruct (Bson.ObjectId_of_str i) as [o|] eqn:Hi.
      * destruct (delete_user_spec o i c Hi)
          as [[E _]|(l1 & d & l2 & -> & E & _)]; rewrite E; simpl; [exact Hd|].
        apply Forall_app in Hd as [H1 H2]. apply Forall_cons in H2 as [_ H2].
        apply Forall_app. auto.
      * rewrite delete_user_store, Hi. exact Hd.
Qed.

(** X14: a collection that only requests to the endpoint have written,
    each [AddUser] with a generated identifier of 12 bytes, holds nothing
    but documents as [add_user] builds them and no two under one
    identifier. This holds from the empty collection and from every
    collection of that kind, for every sequence of requests, failed ones
    included. *)
Theorem served_collection (rs : list request) (c : collection) :
  Forall well_minted rs -> unique_ids c -> Forall user_document c ->
  unique_ids (serve_all rs c) /\ Forall user_document (serve_all rs c).
Proof.
  intros Hrs. revert c. induction Hrs as [|r rs Hr _ IH]; intros c Hu Hd.
  - auto.
  - cbn [serve_all foldl]. destruct (serve_keeps r c Hr Hu Hd) as [Hu' Hd'].
    exact (IH _ Hu' Hd').
Qed.

Lemma served_collection_witness :
  unique_ids (serve_all [AddUser Sample.oid_a "Alice" "alice@example.com";
                         DeleteUser "not-a-valid-id";
                         AddUser Sample.oid_a "Eve" "eve@example.com";
                         AddUser Sample.oid_b "Bob" "bob@example.com";
                         DeleteUser "010101010101010101010101"] [])
  /\ Forall user_document
       (serve_all [AddUser Sample.oid_a "Alice" "alice@example.com";
                   DeleteUser "not-a-valid-id";
                   AddUser Sample.oid_a "Eve" "eve@example.com";
                   AddUser Sample.oid_b "Bob" "bob@example.com";
                   DeleteUser "010101010101010101010101"] []).
Proof.
  apply served_collection.
  - repeat constructor.
  - apply NoDup_nil_2.
  - constructor.
Defined.

Lemma entities_exist (c : collection) :
  Forall user_document c ->
  exists us, Forall2 (fun d u => entity d = Some u) c us.
Proof.
  induction 1 as [|d c Hd _ (us & IH)].
  - exists []. constructor.
  - destruct (user_document_entity d Hd) as (o & n & e & _ & _ & He).
    eexists (_ :: us). constructor; [exact He|exact IH].
Qed.

Lemma unique_ids_first (o : Bson.ObjectId) (l1 l2 : collection) (d : dict) :
  unique_ids (l1 ++ d :: l2) -> d !! "_id" = Some (VOid o) -> absent o l1.
Proof.
  unfold unique_ids. rewrite omap_app. cbn [omap list_omap]. intros Hu Hd.
  rewrite Hd in Hu. apply NoDup_app in Hu as (_ & H & _).
  apply absent_not_elem. intros Hin. apply (H _ Hin). left.
Qed.

Lemma ObjectId_str_inj (o1 o2 : Bson.ObjectId) :
  Bson.ObjectId_str o1 = Bson.ObjectId_str o2 -> o1 = o2.
Proof.
  destruct o1 as [b1], o2 as [b2]. unfold Bson.ObjectId_str. simpl. intros H.
  apply (f_equal Bson.fromhex) in H. rewrite !fromhex_hexlify in H.
  congruence.
Qed.

(** X15: on a collection of documents as [add_user] builds them, no two
    under one identifier, [users()] returns, with one entity per document,
    and [user_by_id] on the id of each listed entity returns that same
    entity. *)
Theorem users_then_user_by_id (c : collection) :
  unique_ids c -> Forall user_document c ->
  exists us : list User,
    Query.users c = (Ok us, c) /\ length us = length c
    /\ forall u, u ∈ us ->
         exists i : string,
           Schema.id u = VStr i /\ Query.user_by_id i c = (Ok (Some u), c).
Proof.
  intros Hu Hd. destruct (entities_exist c Hd) as (us & Hus).
  exists us. split; [apply users_entities, Hus|].
  split; [symmetry; eapply Forall2_length, Hus|].
  intros u [k Hk]%list_elem_of_lookup.
  destruct (Forall2_lookup_r _ _ _ _ _ Hus Hk) as (d & Hdk & He).
  apply list_elem_of_lookup_2 in Hdk.
  pose proof (proj1 (Forall_forall _ _) Hd d Hdk) as Hdoc.
  destruct (user_document_entity d Hdoc) as (o & n & e & Hv & Hid & He').
  rewrite He in He'. injection He' as ->.
  exists (Bson.ObjectId_str o). split; [reflexivity|].
  apply list_elem_of_split in Hdk as (l1 & l2 & ->).
  rewrite (user_by_id_first _ o l1 l2 d (Bson_ObjectId_of_str_str o Hv)
             (unique_ids_first o l1 l2 d Hu Hid) Hid), He.
  reflexivity.
Qed.

Lemma users_then_user_by_id_witness :
  exists us : list User,
    Query.users (Sample.one_user ++ [UserModel.added_document Sample.oid_a "Alice"
                                       "alice@example.com"])
    = (Ok us, Sample.one_user ++ [UserModel.added_document Sample.oid_a "Alice"
                                    "alice@example.com"])
    /\ length us = length (Sample.one_user ++ [UserModel.added_document Sample.oid_a
                                                 "Alice" "alice@example.com"])
    /\ forall u, u ∈ us ->
         exists i : string,
           Schema.id u = VStr i
           /\ Query.user_by_id i
                (Sample.one_user ++ [UserModel.added_document Sample.oid_a "Alice"
                                       "alice@example.com"])
              = (Ok (Some u), Sample.one_user ++ [UserModel.added_document Sample.oid_a
                                                    "Alice" "alice@example.com"]).
Proof.
  apply users_then_user_by_id.
  - unfold unique_ids. vm_compute. repeat constructor.
    + intros H. apply list_elem_of_singleton in H. discriminate H.
    + intros H. inversion H.
  - repeat constructor.
    + exists Sample.oid_b, "Bob", "bob@example.com". split; reflexivity.
    + exists Sample.oid_a, "Alice", "alice@example.com". split; reflexivity.
Defined.

(** X16: on such a collection the ids of the entities that [users()]
    returns are pairwise distinct: no two listed users share an id. *)
Theorem users_distinct_ids (c : collection) (us : list User) :
  unique_ids c -> Forall user_document c ->
  Query.users c = (Ok us, c) ->
  NoDup (Schema.id <$> us).
Proof.
  intros Hu Hd Hus. apply users_entities in Hus.
  assert (E : Schema.id <$> us
              = (fun v => VStr (str v)) <$> omap (fun d : dict => d !! "_id") c).
  { clear Hu. induction Hus as [|d u c us He _ IH]; [reflexivity|].
    apply Forall_cons in Hd as [Hdoc Hd].
    destruct (user_document_entity d Hdoc) as (o & n & e & _ & Hid & He').
    rewrite He in He'. injection He' as ->.
    cbn [omap list_omap]. rewrite Hid. cbn [fmap list_fmap].
    rewrite <- (IH Hd). reflexivity. }
  rewrite E. apply NoDup_fmap_2_strong; [|exact Hu].
  intros x y Hx Hy Hxy.
  apply list_elem_of_omap in Hx as (dx & Hdx & Ex).
  apply list_elem_of_omap in Hy as (dy & Hdy & Ey).
  destruct (user_document_entity dx (proj1 (Forall_forall _ _) Hd dx Hdx))
    as (ox & _ & _ & _ & Ex' & _).
  destruct (user_document_entity dy (proj1 (Forall_forall _ _) Hd dy Hdy))
    as (oy & _ & _ & _ & Ey' & _).
  rewrite Ex in Ex'. rewrite Ey in Ey'. simplify_eq. simpl in Hxy.
  f_equal. apply ObjectId_str_inj. congruence.
Qed.

Lemma users_distinct_ids_witness :
  NoDup (Schema.id <$> [MkUser (VStr "abababababababababababab") (VStr "Bob")
                          (VStr "bob@example.com");
                        MkUser (VStr "010101010101010101010101") (VStr "Alice")
                          (VStr "alice@example.com");
                        MkUser (VStr "cdcdcdcdcdcdcdcdcdcdcdcd") (VStr "Bob")
                          (VStr "bob@example.com")]).
Proof.
  apply (users_distinct_ids Sample.three_users).
  - unfold unique_ids. vm_compute. repeat constructor.
    + intros H. apply elem_of_cons in H as [H|H]; [discriminate H|].
      apply list_elem_of_singleton in H. discriminate H.
    + intros H. apply list_elem_of_singleton in H. discriminate H.
    + intros H. inversion H.
  - repeat constructor.
    + exists Sample.oid_b, "Bob", "bob@example.com". split; reflexivity.
    + exists Sample.oid_a, "Alice", "alice@example.com". split; reflexivity.
    + exists Sample.oid_c, "Bob", "bob@example.com". split; reflexivity.
  - vm_compute. reflexivity.
Defined.

End Served.

(** * Further properties of the start-up *)

Section Settings.
Import Py Database.

Variable uri_ok : string -> bool.
Variable uri_error : string -> exn.
Variable name_ok : string -> bool.

(** X17: the import of [database.py] returns a database handle exactly when
    [MONGO_DB] is set to a name the driver accepts and [MONGO_URI] is
    either not set or set to a connection string the driver accepts; the
    handle then carries that name, on a client for that connection string
    or, without one, for the default host. *)
Theorem init_returns_iff (dotenv env : environ) (db : Database) :
  fst (init uri_ok uri_error name_ok dotenv env) = Ok db
  <-> exists n : string,
        (env ∪ dotenv) !! "MONGO_DB" = Some n /\ name_ok n = true
        /\ db_name db = n
        /\ match (env ∪ dotenv) !! "MONGO_URI" with
           | Some uri => uri_ok uri = true /\ host (client db) = uri
           | None => host (client db) = "localhost"
           end.
Proof.
  rewrite init_unfold. cbn [fst]. unfold MongoClient_new, get_database.
  destruct db as [[h] m]. cbn [db_name client host].
  destruct ((env ∪ dotenv) !! "MONGO_URI") as [uri|];
    [destruct (uri_ok uri)|];
    (destruct ((env ∪ dotenv) !! "MONGO_DB") as [n|];
     [destruct (name_ok n) eqn:Hn|]);
    split; try discriminate;
    try (intros [= <- <-]; by eauto 10);
    intros (n' & Hn' & Hok & Hm & Hh); simplify_eq;
    try (destruct Hh as [Hu Hh]; simplify_eq); done || congruence.
Qed.


(** X19: when the process environment sets neither variable, the import
    runs on the values of the [.env] file alone. *)
Theorem init_dotenv_fallback (dotenv env : environ) :
  env !! "MONGO_URI" = None -> env !! "MONGO_DB" = None ->
  fst (init uri_ok uri_error name_ok dotenv env) = fst (init uri_ok uri_error name_ok ∅ dotenv).
Proof.
  intros Hu Hn. rewrite !init_unfold. cbn [fst].
  rewrite !(lookup_union_r env dotenv) by assumption.
  rewrite (right_id_L ∅ (∪) dotenv). reflexivity.
Qed.

End Settings.


Lemma init_dotenv_fallback_witness :
  fst (Database.init (fun _ => true) (fun _ => Py.ValueError) (fun _ => true)
         {["MONGO_DB" := "demo"]} {["HOME" := "/root"]})
  = fst (Database.init (fun _ => true) (fun _ => Py.ValueError) (fun _ => true) ∅ {["MONGO_DB" := "demo"]}).
Proof.
  apply (init_dotenv_fallback (fun _ => true) (fun _ => Py.ValueError) (fun _ => true)
           {["MONGO_DB" := "demo"]} {["HOME" := "/root"]}); reflexivity.
Defined.
